(** * The Python gateway in front of the Spring Boot backend

    A shallow embedding of [python-backend/main.py]: the three FastAPI
    handlers ([health_check], [proxy_to_spring], [process_data]), the
    Python values they handle, and the outside world they talk to (the
    upstream reached through httpx, and the wall clock).

    Handlers are programs in a small state-and-exception monad [Py]; the
    state is the [World], which answers outbound calls and logs them. *)

From stdpp Require Import base strings list gmap pretty.
From Stdlib Require Import ZArith NArith Ascii String.

Set Warnings "-register-all".

Local Open Scope Z_scope.

(** ** Python values *)

Module PyData.

(** [bytes] *)
Definition bytes : Type := list Byte.byte.

Definition encode (s : string) : bytes := list_byte_of_string s.

(** [str.lower()], on the ASCII letters. *)
Definition lower_ascii (c : ascii) : ascii :=
  let n := N_of_ascii c in
  if ((65 <=? n) && (n <=? 90))%N then ascii_of_N (n + 32) else c.

Fixpoint lower (s : string) : string :=
  match s with
  | EmptyString => EmptyString
  | String c s' => String (lower_ascii c) (lower s')
  end.

(** Truth value of a [str] in a condition: the empty string is false. *)
Definition truthy (s : string) : bool :=
  match s with
  | EmptyString => false
  | String _ _ => true
  end.

(** [sep.join(items)] *)
Fixpoint join (sep : string) (items : list string) : string :=
  match items with
  | [] => ""
  | [x] => x
  | x :: rest => x +:+ sep +:+ join sep rest
  end.

(** A value decoded from JSON, as Python holds it. An object keeps its
    keys in insertion order; a float is kept by its IEEE-754 bit
    pattern, no handler looks inside one. *)
Inductive json : Type :=
| JNull
| JBool (b : bool)
| JInt (n : Z)
| JFloat (bits : Z)
| JStr (s : string)
| JArr (items : list json)
| JObj (members : list (string * json)).

(** [datetime.datetime], naive (no tzinfo). *)
Record datetime : Type := mkDatetime {
  year : N; month : N; day : N;
  hour : N; minute : N; second : N;
  microsecond : N
}.

Definition digit (d : N) : ascii := ascii_of_N (48 + d mod 10).

(** ["%0<width>d" % n] *)
Fixpoint zero_padded (width : nat) (n : N) : string :=
  match width with
  | O => ""
  | S w => zero_padded w (n / 10) +:+ String (digit n) ""
  end.

(** [datetime.isoformat()] of a naive datetime: the fraction is printed
    only when the microsecond is not zero. *)
Definition isoformat (d : datetime) : string :=
  zero_padded 4 (year d) +:+ "-" +:+ zero_padded 2 (month d) +:+ "-" +:+
  zero_padded 2 (day d) +:+ "T" +:+
  zero_padded 2 (hour d) +:+ ":" +:+ zero_padded 2 (minute d) +:+ ":" +:+
  zero_padded 2 (second d) +:+
  (if (microsecond d =? 0)%N then "" else "." +:+ zero_padded 6 (microsecond d)).

End PyData.
Export PyData.

(** ** The mapping protocol

    [dict(m)] on an object that is not a dict goes through [m.keys()] and
    [m[k]]. The three multi-maps of the program answer them differently. *)

Class Mapping (M : Type) : Type := {
  keys : M → list string;
  getitem : M → string → option string
}.

(** [dict(m)]: [for k in m.keys(): d[k] = m[k]]. A key that [m] reports
    and then does not find is skipped here (Python would raise KeyError);
    the three mappings below find every key they report on headers and
    parameters as they are delivered. *)
Definition dict {M} `{Mapping M} (m : M) : gmap string string :=
  foldl (λ d k, match getitem m k with
                | Some v => <[k := v]> d
                | None => d
                end) ∅ (keys m).

Definition first_value (k : string) (l : list (string * string)) : option string :=
  snd <$> List.find (λ kv, String.eqb (fst kv) k) l.

Definition last_value (k : string) (l : list (string * string)) : option string :=
  first_value k (rev l).

Definition values_of (k : string) (l : list (string * string)) : list string :=
  snd <$> List.filter (λ kv, String.eqb (lower (fst kv)) k) l.

(** [starlette.datastructures.Headers]: the raw header list of the ASGI
    scope. The server delivers the names in lower case; a lookup lowers
    the key asked for and returns the first value under it. *)
Record Headers : Type := mkHeaders { raw : list (string * string) }.

#[export] Instance Headers_Mapping : Mapping Headers := {|
  keys h := fst <$> raw h;
  getitem h k := first_value (lower k) (raw h)
|}.

(** The names of an ASGI scope are lower case. *)
Definition asgi_names (h : Headers) : Prop :=
  Forall (λ kv, lower (fst kv) = fst kv) (raw h).

(** [starlette.datastructures.QueryParams]: a lookup returns the last
    value given for the key. *)
Record QueryParams : Type := mkQueryParams { multi_items : list (string * string) }.

#[export] Instance QueryParams_Mapping : Mapping QueryParams := {|
  keys q := fst <$> multi_items q;
  getitem q k := last_value k (multi_items q)
|}.

(** [httpx.Headers]: keys are reported in lower case, and a lookup joins
    every value under the name with [", "]. *)
Record httpx_Headers : Type := mkHttpxHeaders { received : list (string * string) }.

#[export] Instance httpx_Headers_Mapping : Mapping httpx_Headers := {|
  keys h := (λ kv, lower (fst kv)) <$> received h;
  getitem h k :=
    match values_of (lower k) (received h) with
    | [] => None
    | items => Some (join ", " items)
    end
|}.

(** ** Exceptions *)

(** The subclasses of [httpx.RequestError]. A refused connection, a DNS
    failure and a TLS failure surface as [ConnectError]; the timeouts are
    the four [*Timeout] classes. *)
Inductive request_error : Type :=
| ConnectTimeout | ReadTimeout | WriteTimeout | PoolTimeout
| ConnectError | ReadError | WriteError | CloseError
| LocalProtocolError | RemoteProtocolError
| ProxyError | UnsupportedProtocol
| DecodingError | TooManyRedirects.

(** What a handler, or a library under it, can raise (subclasses of
    [Exception]). *)
Inductive exception : Type :=
| RequestError (cls : request_error) (msg : string)
| PyError (cls : string) (msg : string)
| HTTPException (status_code : Z) (detail : string).

(** [str(e)] *)
Definition str (e : exception) : string :=
  match e with
  | RequestError _ msg => msg
  | PyError _ msg => msg
  | HTTPException sc detail => pretty sc +:+ ": " +:+ detail
  end.

(** [isinstance(e, httpx.RequestError)] *)
Definition is_RequestError (e : exception) : bool :=
  match e with
  | RequestError _ _ => true
  | _ => false
  end.

(** [isinstance(e, Exception)] *)
Definition is_Exception (e : exception) : bool := true.

Inductive result (A : Type) : Type :=
| Return (a : A)
| Raise (e : exception).
Arguments Return {A} a.
Arguments Raise {A} e.

(** ** The outside world *)

(** [httpx.Response] as the handlers read it; [resp_json] is what
    [response.json()] returns or raises. *)
Record httpx_Response : Type := mkHttpxResponse {
  resp_status_code : Z;
  resp_headers : httpx_Headers;
  resp_content : bytes;
  resp_json : result json
}.

(** The arguments of [http_client.request(...)], the client shared by
    every proxied call (created with [timeout=30.0]). *)
Record client_request : Type := mkClientRequest {
  rq_method : string;
  rq_url : string;
  rq_headers : gmap string string;
  rq_params : gmap string string;
  rq_content : bytes
}.

(** The arguments of [client.post(...)] on the client [process_data]
    opens for itself. *)
Record client_post : Type := mkClientPost {
  post_url : string;
  post_json : json;
  post_headers : gmap string string
}.

Inductive outbound : Type :=
| SharedRequest (c : client_request)
| FreshPost (c : client_post).

(** The upstream answers a call, knowing the calls made before it, with a
    response or an exception; the clock is read in local time by
    [datetime.now()], and [utc_clock] is the same instant in UTC, which
    no handler reads. [sent] logs the outbound calls, oldest first. *)
Record World : Type := mkWorld {
  network : list outbound → outbound → result httpx_Response;
  local_clock : datetime;
  utc_clock : datetime;
  sent : list outbound
}.

(** ** Handler programs *)

Definition Py (A : Type) : Type := World → result A * World.

#[export] Instance Py_ret : MRet Py := λ A a w, (Return a, w).

#[export] Instance Py_bind : MBind Py := λ A B f m w,
  match m w with
  | (Return a, w') => f a w'
  | (Raise e, w') => (Raise e, w')
  end.

Definition raise {A} (e : exception) : Py A := λ w, (Raise e, w).

(** [try: body / except <cls> as e: handler e] *)
Definition try_except {A} (body : Py A) (cls : exception → bool)
    (handler : exception → Py A) : Py A := λ w,
  match body w with
  | (Return a, w') => (Return a, w')
  | (Raise e, w') => if cls e then handler e w' else (Raise e, w')
  end.

Definition logged (o : outbound) (w : World) : World :=
  {| network := network w; local_clock := local_clock w;
     utc_clock := utc_clock w; sent := sent w ++ [o] |}.

Definition call (o : outbound) : Py httpx_Response := λ w,
  (network w (sent w) o, logged o w).

(** [await http_client.request(method=, url=, headers=, params=, content=)] *)
Definition http_client_request (c : client_request) : Py httpx_Response :=
  call (SharedRequest c).

(** [async with httpx.AsyncClient() as client: await client.post(url, json=, headers=)] *)
Definition client_post_ (c : client_post) : Py httpx_Response :=
  call (FreshPost c).

(** [datetime.now()]: the local wall clock, naive. *)
Definition datetime_now : Py datetime := λ w, (Return (local_clock w), w).

(** [response.json()] *)
Definition response_json (r : httpx_Response) : Py json := λ w, (resp_json r, w).

(** ** Configuration and requests *)

(** [os.getenv(name, default)] *)
Definition getenv (environ : gmap string string) (name default : string) : string :=
  match environ !! name with
  | Some v => v
  | None => default
  end.

Record Config : Type := mkConfig {
  SPRING_BACKEND_URL : string;
  API_KEY : string
}.

Definition load_config (environ : gmap string string) : Config :=
  {| SPRING_BACKEND_URL := getenv environ "SPRING_BACKEND_URL" "http://localhost:8080";
     API_KEY := getenv environ "API_KEY" "" |}.

(** [starlette.requests.Request] *)
Record Request : Type := mkRequest {
  method : string;
  req_headers : Headers;
  query_params : QueryParams;
  body : bytes
}.

(** What the caller is answered: one of the response objects a handler
    builds, or the 422 with which FastAPI turns down a body that does not
    fit the declared parameter type. *)
Inductive http_response : Type :=
| Response (content : bytes) (status_code : Z) (headers : gmap string string)
| JSONResponse (content : json) (status_code : Z)
| PlainTextResponse (content : string) (status_code : Z)
| ValidationErrorResponse.

Definition status_of (r : http_response) : Z :=
  match r with
  | Response _ sc _ => sc
  | JSONResponse _ sc => sc
  | PlainTextResponse _ sc => sc
  | ValidationErrorResponse => 422
  end.

(** ** The handlers *)

Section Handlers.

Variable cfg : Config.

(** [@app.get("/health")] *)
Definition health_check : Py json :=
  mret (JObj [("status", JStr "healthy"); ("service", JStr "python-backend")]).

(** The arguments [proxy_to_spring] prepares for the upstream call: the
    target URL, the body, the header dict without ["host"] and with the
    configured credential, and the query parameters. *)
Definition outbound_request (request : Request) (path : string) : client_request :=
  let url := SPRING_BACKEND_URL cfg +:+ "/" +:+ path in
  let body := body request in
  let headers := dict (req_headers request) in
  let headers := delete "host" headers in
  let headers :=
    if truthy (API_KEY cfg)
    then <["Authorization" := "Bearer " +:+ API_KEY cfg]> headers
    else headers in
  {| rq_method := method request;
     rq_url := url;
     rq_headers := headers;
     rq_params := dict (query_params request);
     rq_content := body |}.

(** [@app.api_route("/proxy/{path:path}", methods=["GET", "POST", "PUT", "DELETE", "PATCH"])] *)
Definition proxy_to_spring (request : Request) (path : string) : Py http_response :=
  try_except
    (response ← http_client_request (outbound_request request path);
     mret (Response (resp_content response) (resp_status_code response)
                    (dict (resp_headers response))))
    is_RequestError
    (λ e, raise (HTTPException 500
                   ("Error communicating with backend: " +:+ str e))).

(** The object [process_data] builds around the payload, and the
    arguments of its POST. *)
Definition processed_data (now : datetime) (data : list (string * json)) : json :=
  JObj [("processed", JBool true);
        ("original", JObj data);
        ("timestamp", JStr (isoformat now))].

Definition outbound_post (now : datetime) (data : list (string * json)) : client_post :=
  {| post_url := SPRING_BACKEND_URL cfg +:+ "/api/processed-data";
     post_json := processed_data now data;
     post_headers := {["Content-Type" := "application/json"]} |}.

(** [@app.post("/api/process")] *)
Definition process_data (data : list (string * json)) : Py http_response :=
  try_except
    (now ← datetime_now;
     response ← client_post_ (outbound_post now data);
     content ← response_json response;
     mret (JSONResponse content (resp_status_code response)))
    is_Exception
    (λ e, raise (HTTPException 500 (str e))).

(** ** The framework around the handlers *)

(** FastAPI's exception handlers: an [HTTPException] becomes a JSON
    response [{"detail": detail}] with its status code; anything else
    that escapes a handler becomes the server's plain 500. *)
Definition exception_response (e : exception) : http_response :=
  match e with
  | HTTPException sc detail => JSONResponse (JObj [("detail", JStr detail)]) sc
  | _ => PlainTextResponse "Internal Server Error" 500
  end.

Definition serve (handler : Py http_response) (w : World) : http_response * World :=
  match handler w with
  | (Return r, w') => (r, w')
  | (Raise e, w') => (exception_response e, w')
  end.

(** [GET /health]: the returned dict is sent as JSON with status 200. *)
Definition get_health : World → http_response * World :=
  serve (payload ← health_check; mret (JSONResponse payload 200)).

(** [<method> /proxy/{path}] *)
Definition any_proxy (request : Request) (path : string) : World → http_response * World :=
  serve (proxy_to_spring request path).

(** [POST /api/process]: the parameter is declared [data: Dict[str, Any]],
    so FastAPI hands the decoded body to the handler when it is a JSON
    object and answers 422 itself otherwise. *)
Definition post_api_process (decoded : json) : World → http_response * World :=
  match decoded with
  | JObj members => serve (process_data members)
  | _ => λ w, (ValidationErrorResponse, w)
  end.

End Handlers.

(** ** The routes together *)

(** A request that one of the three routes has matched. *)
Inductive endpoint : Type :=
| Health
| Proxy (request : Request) (path : string)
| Process (decoded : json).

Definition handle (cfg : Config) (e : endpoint) : World → http_response * World :=
  match e with
  | Health => get_health
  | Proxy request path => any_proxy cfg request path
  | Process decoded => post_api_process cfg decoded
  end.

(** A request together with what the clocks show when it arrives. *)
Record arrival : Type := mkArrival {
  at_local : datetime;
  at_utc : datetime;
  what : endpoint
}.

Definition at_time (a : arrival) (w : World) : World :=
  {| network := network w; local_clock := at_local a;
     utc_clock := at_utc a; sent := sent w |}.

(** Requests served one after the other, each at its own time. *)
Fixpoint serve_all (cfg : Config) (arrivals : list arrival) (w : World)
    : list http_response * World :=
  match arrivals with
  | [] => ([], w)
  | a :: rest =>
      let '(r, w1) := handle cfg (what a) (at_time a w) in
      let '(rs, w2) := serve_all cfg rest w1 in
      (r :: rs, w2)
  end.

(** The outbound call an arrival stands for, if any. *)
Definition outbound_of (cfg : Config) (a : arrival) : list outbound :=
  match what a with
  | Health => []
  | Proxy request path => [SharedRequest (outbound_request cfg request path)]
  | Process (JObj members) => [FreshPost (outbound_post cfg (at_local a) members)]
  | Process _ => []
  end.

(** The field ranges of a [datetime]. *)
Definition valid_datetime (d : datetime) : Prop :=
  (1 ≤ year d ≤ 9999 ∧ 1 ≤ month d ≤ 12 ∧ 1 ≤ day d ≤ 31
   ∧ hour d < 24 ∧ minute d < 60 ∧ second d < 60
   ∧ microsecond d < 1000000)%N.

(** ** Sample configurations, requests and worlds *)

Module Samples.

(** The configuration of an empty environment, and one with a key. *)
Definition default_cfg : Config := load_config ∅.

Definition keyed_cfg : Config :=
  load_config {["API_KEY" := "s3cret"]}.

(** A GET with a repeated header and a credential of the caller's own. *)
Definition inbound : Request :=
  {| method := "GET";
     req_headers := mkHeaders [("host", "gateway:5000");
                               ("authorization", "Basic dXNlcg==");
                               ("x-trace", "1");
                               ("x-trace", "2")];
     query_params := mkQueryParams [("page", "1"); ("page", "2")];
     body := [] |}.

Definition not_found : httpx_Response :=
  {| resp_status_code := 404;
     resp_headers := mkHttpxHeaders [("Content-Type", "text/plain");
                                     ("Set-Cookie", "a=1");
                                     ("set-cookie", "b=2")];
     resp_content := encode "no such thing";
     resp_json := Raise (PyError "JSONDecodeError"
                           "Expecting value: line 1 column 1 (char 0)") |}.

Definition created : httpx_Response :=
  {| resp_status_code := 201;
     resp_headers := mkHttpxHeaders [("Content-Type", "application/json")];
     resp_content := encode "[7, true]";
     resp_json := Return (JArr [JInt 7; JBool true]) |}.

(** A host two hours east of UTC, on 9 March 2024. *)
Definition afternoon : datetime := mkDatetime 2024 3 9 14 5 7 0.
Definition afternoon_utc : datetime := mkDatetime 2024 3 9 12 5 7 0.

Definition answering (r : httpx_Response) : World :=
  {| network := λ _ _, Return r;
     local_clock := afternoon; utc_clock := afternoon_utc;
     sent := [] |}.

Definition unreachable : World :=
  {| network := λ _ _, Raise (RequestError ConnectError "All connection attempts failed");
     local_clock := afternoon; utc_clock := afternoon_utc;
     sent := [] |}.


(** A client that turns the call down before anything is sent. *)
Definition rejecting : World :=
  {| network := λ _ _, Raise (PyError "InvalidURL" "Invalid port: 'eighty'");
     local_clock := afternoon; utc_clock := afternoon_utc;
     sent := [] |}.

(** A morning of traffic: a health check, a proxied GET, an array sent
    to the processing route, and an object sent to it a second later. *)
Definition morning : list arrival :=
  [ mkArrival afternoon afternoon_utc Health;
    mkArrival afternoon afternoon_utc (Proxy inbound "orders/7");
    mkArrival afternoon afternoon_utc (Process (JArr [JInt 1]));
    mkArrival (mkDatetime 2024 3 9 14 5 8 0) (mkDatetime 2024 3 9 12 5 8 0)
              (Process (JObj [("x", JInt 1)])) ].

End Samples.

(** * Properties *)

(** ** Strings and dicts *)

Lemma truthy_empty (s : string) : truthy s = false ↔ s = "".
Proof. destruct s; simpl; split; congruence. Qed.


Section dict_facts.

Context {M : Type} `{Mapping M}.
Implicit Types (m : M) (k : string) (d : gmap string string).

Lemma dict_fold_lookup m (ks : list string) d k :
  foldl (λ d k, match getitem m k with
                | Some v => <[k := v]> d
                | None => d
                end) d ks !! k
  = if decide (k ∈ ks)
    then match getitem m k with Some v => Some v | None => d !! k end
    else d !! k.
Proof.
  revert d. induction ks as [|k' ks IH]; intros d; simpl.
  - destruct (decide (k ∈ [])) as [Hin|]; [|done]. by apply elem_of_nil in Hin.
  - rewrite IH. clear IH.
    destruct (decide (k = k')) as [->|Hne].
    + destruct (decide (k' ∈ k' :: ks)) as [_|Hn]; [|by destruct Hn; left].
      destruct (getitem m k') as [v|] eqn:Hg.
      * rewrite lookup_insert_eq. by destruct (decide (k' ∈ ks)).
      * by destruct (decide (k' ∈ ks)).
    + assert (Hk : (match getitem m k' with
                    | Some v => <[k' := v]> d
                    | None => d
                    end) !! k = d !! k).
      { destruct (getitem m k'); [by rewrite lookup_insert_ne|done]. }
      rewrite Hk.
      destruct (decide (k ∈ ks)) as [Hin|Hin], (decide (k ∈ k' :: ks)) as [Hin'|Hin'];
        try done.
      * destruct Hin'. by right.
      * apply elem_of_cons in Hin' as [?|?]; congruence.
Qed.

(** [dict(m)] holds exactly the items of [m]: under each key that [m]
    reports, the value that [m] returns for it. *)
Lemma dict_lookup m k :
  dict m !! k = if decide (k ∈ keys m) then getitem m k else None.
Proof.
  unfold dict. rewrite dict_fold_lookup, lookup_empty.
  destruct (decide _); [by destruct (getitem m k)|done].
Qed.

End dict_facts.

(** ** Starlette's header object and its dict *)

Lemma first_value_absent (k : string) (l : list (string * string)) :
  k ∉ (fst <$> l) → first_value k l = None.
Proof.
  unfold first_value. induction l as [|[k' v] l IH]; simpl; intros Hk; [done|].
  apply not_elem_of_cons in Hk as [Hne Hk].
  destruct (String.eqb_spec k' k) as [->|_]; [done|]. by apply IH.
Qed.

Lemma first_value_present (k : string) (l : list (string * string)) :
  k ∈ (fst <$> l) → is_Some (first_value k l).
Proof.
  unfold first_value. induction l as [|[k' v] l IH]; simpl; intros Hk.
  - by apply elem_of_nil in Hk.
  - destruct (String.eqb_spec k' k) as [->|Hne]; [by eexists|].
    apply elem_of_cons in Hk as [->|Hk]; [done|]. by apply IH.
Qed.

Lemma asgi_names_key (h : Headers) (k : string) :
  asgi_names h → k ∈ keys h → lower k = k.
Proof.
  intros Hh Hk. simpl in Hk. apply list_elem_of_fmap in Hk as [kv [-> Hkv]].
  unfold asgi_names in Hh. rewrite Forall_forall in Hh. by apply Hh.
Qed.

(** On a request as the server delivers it, [dict(request.headers)] maps
    each name to the first value received under it. *)
Lemma dict_Headers_lookup (h : Headers) (k : string) :
  asgi_names h → dict h !! k = first_value k (raw h).
Proof.
  intros Hh. rewrite dict_lookup. destruct (decide (k ∈ keys h)) as [Hk|Hk].
  - simpl. by rewrite (asgi_names_key h k Hh Hk).
  - symmetry. by apply first_value_absent.
Qed.

Lemma dict_Headers_lower (h : Headers) (k v : string) :
  asgi_names h → dict h !! k = Some v → lower k = k.
Proof.
  intros Hh. rewrite dict_lookup.
  destruct (decide (k ∈ keys h)) as [Hk|Hk]; [|done].
  intros _. by apply (asgi_names_key h).
Qed.

(** ** What a run of each handler does *)

Section runs.

Variable cfg : Config.

Lemma sent_logged (o : outbound) (w : World) : sent (logged o w) = sent w ++ [o].
Proof. reflexivity. Qed.

(** One call, and then either the upstream's response rebuilt, or the
    500 for a request error, or the exception itself. *)
Lemma proxy_to_spring_run (request : Request) (path : string) (w : World) :
  let o := SharedRequest (outbound_request cfg request path) in
  proxy_to_spring cfg request path w =
    (match network w (sent w) o with
     | Return r =>
         Return (Response (resp_content r) (resp_status_code r)
                          (dict (resp_headers r)))
     | Raise e =>
         if is_RequestError e
         then Raise (HTTPException 500
                       ("Error communicating with backend: " +:+ str e))
         else Raise e
     end, logged o w).
Proof.
  intros o. unfold proxy_to_spring, try_except, http_client_request, call.
  unfold mbind, Py_bind, mret, Py_ret, raise. fold o.
  destruct (network w (sent w) o) as [r|e]; [done|].
  by destruct (is_RequestError e).
Qed.

Lemma process_data_run (data : list (string * json)) (w : World) :
  let o := FreshPost (outbound_post cfg (local_clock w) data) in
  process_data cfg data w =
    (match network w (sent w) o with
     | Return r =>
         match resp_json r with
         | Return content => Return (JSONResponse content (resp_status_code r))
         | Raise e => Raise (HTTPException 500 (str e))
         end
     | Raise e => Raise (HTTPException 500 (str e))
     end, logged o w).
Proof.
  intros o. unfold process_data, try_except, client_post_, call.
  unfold datetime_now, response_json.
  unfold mbind, Py_bind, mret, Py_ret, raise, is_Exception. fold o.
  destruct (network w (sent w) o) as [r|e]; [|done].
  by destruct (resp_json r).
Qed.

End runs.

(** ** The proxy *)

Section proxy.

Variable cfg : Config.
Implicit Types (request : Request) (path : string) (w : World).

(** The header dict of the outbound call, key by key. *)
Lemma outbound_headers_lookup request path (k : string) :
  rq_headers (outbound_request cfg request path) !! k =
    if truthy (API_KEY cfg)
    then (if decide (k = "Authorization")
          then Some ("Bearer " +:+ API_KEY cfg)
          else if decide (k = "host") then None
          else dict (req_headers request) !! k)
    else (if decide (k = "host") then None
          else dict (req_headers request) !! k).
Proof.
  unfold outbound_request; simpl.
  destruct (truthy (API_KEY cfg)).
  - destruct (decide (k = "Authorization")) as [->|Hk].
    + by rewrite lookup_insert_eq.
    + rewrite lookup_insert_ne by done.
      destruct (decide (k = "host")) as [->|Hh].
      * by rewrite lookup_delete_eq.
      * by rewrite lookup_delete_ne.
  - destruct (decide (k = "host")) as [->|Hh].
    + by rewrite lookup_delete_eq.
    + by rewrite lookup_delete_ne.
Qed.

Lemma proxy_to_spring_sent request path w (c : client_request) :
  sent (proxy_to_spring cfg request path w).2 = sent w ++ [SharedRequest c] →
  c = outbound_request cfg request path.
Proof.
  rewrite proxy_to_spring_run. simpl. intros Hs.
  apply app_inv_head in Hs. congruence.
Qed.

(** C1. Whatever the method and the path of the proxied request (empty,
    with slashes, with a query-like part), the handler makes one call,
    with the request's method, to the upstream base URL followed by "/"
    and the path as it was given. *)
Theorem proxy_url_is_base_slash_path request path w :
  ∃ c, sent (proxy_to_spring cfg request path w).2 = sent w ++ [SharedRequest c]
       ∧ rq_url c = SPRING_BACKEND_URL cfg +:+ "/" +:+ path
       ∧ rq_method c = method request.
Proof.
  exists (outbound_request cfg request path).
  by rewrite proxy_to_spring_run.
Qed.


(** C3. The header dict of the outbound call has no ["host"] entry, and on
    a request as the server delivers it no entry under any spelling of
    that name. With an empty API_KEY every other entry of
    [dict(request.headers)] is there under the same key with the same
    value: for a delivered request, the first value received under the
    name. *)
Theorem proxy_drops_host_keeps_rest request path w (c : client_request) :
  sent (proxy_to_spring cfg request path w).2 = sent w ++ [SharedRequest c] →
  rq_headers c !! "host" = None
  ∧ (asgi_names (req_headers request) →
     ∀ k, lower k = "host" → rq_headers c !! k = None)
  ∧ (API_KEY cfg = "" →
     ∀ k, k ≠ "host" → rq_headers c !! k = dict (req_headers request) !! k)
  ∧ (API_KEY cfg = "" → asgi_names (req_headers request) →
     ∀ k, k ≠ "host" → rq_headers c !! k = first_value k (raw (req_headers request))).
Proof.
  intros ->%proxy_to_spring_sent.
  assert (Hrest : API_KEY cfg = "" → ∀ k, k ≠ "host" →
            rq_headers (outbound_request cfg request path) !! k
            = dict (req_headers request) !! k).
  { intros Hkey k Hk. rewrite outbound_headers_lookup.
    apply truthy_empty in Hkey. rewrite Hkey. by rewrite decide_False. }
  split; [|split; [|split]].
  - rewrite outbound_headers_lookup. by destruct (truthy (API_KEY cfg)).
  - intros Hasgi k Hk. rewrite outbound_headers_lookup.
    assert (Hd : k ≠ "host" → dict (req_headers request) !! k = None).
    { intros Hne. destruct (dict (req_headers request) !! k) as [v|] eqn:Hv; [|done].
      apply (dict_Headers_lower _ _ _ Hasgi) in Hv. congruence. }
    destruct (truthy (API_KEY cfg)).
    + rewrite decide_False by (intros ->; discriminate Hk).
      destruct (decide (k = "host")); auto.
    + destruct (decide (k = "host")); auto.
  - exact Hrest.
  - intros Hkey Hasgi k Hk. rewrite Hrest by done. by apply dict_Headers_lookup.
Qed.

(** With a key configured, the entry ["Authorization"] of the outbound
    dict is the bearer credential. *)
Lemma proxy_sets_bearer request path :
  API_KEY cfg ≠ "" →
  rq_headers (outbound_request cfg request path) !! "Authorization"
  = Some ("Bearer " +:+ API_KEY cfg).
Proof.
  intros Hkey. rewrite outbound_headers_lookup.
  destruct (truthy (API_KEY cfg)) eqn:Ht.
  - by rewrite decide_True.
  - by apply truthy_empty in Ht.
Qed.

(** Without a key, a delivered ["authorization"] header goes out as it
    came in. *)
Lemma proxy_passes_authorization request path :
  API_KEY cfg = "" → asgi_names (req_headers request) →
  rq_headers (outbound_request cfg request path) !! "authorization"
  = first_value "authorization" (raw (req_headers request)).
Proof.
  intros Hkey Hasgi. rewrite outbound_headers_lookup.
  apply truthy_empty in Hkey. rewrite Hkey.
  rewrite decide_False by done. by apply dict_Headers_lookup.
Qed.

(** C4. With a key configured, a request that arrives with an
    authorization header of its own (delivered, like every header, under
    its lower-case name) goes out with two of them: the bearer credential
    under ["Authorization"], and the caller's value, untouched, under
    ["authorization"]. *)
Theorem proxy_sends_two_authorization_headers request path w (v : string) :
  API_KEY cfg ≠ "" →
  asgi_names (req_headers request) →
  first_value "authorization" (raw (req_headers request)) = Some v →
  ∃ c, sent (proxy_to_spring cfg request path w).2 = sent w ++ [SharedRequest c]
       ∧ rq_headers c !! "Authorization" = Some ("Bearer " +:+ API_KEY cfg)
       ∧ rq_headers c !! "authorization" = Some v.
Proof.
  intros Hkey Hasgi Hv. exists (outbound_request cfg request path).
  split; [by rewrite proxy_to_spring_run|].
  split; [by apply proxy_sets_bearer|].
  rewrite outbound_headers_lookup.
  destruct (truthy (API_KEY cfg)) eqn:Ht; [|by apply truthy_empty in Ht].
  rewrite !decide_False by done.
  by rewrite dict_Headers_lookup.
Qed.

(** C5. When the call fails with a request error of httpx (a refused
    connection, a timeout, a DNS or TLS failure and the rest of that
    family), the handler raises the HTTP exception 500 whose detail is
    "Error communicating with backend: " followed by the text of the
    error, which the framework sends as [{"detail": ...}]; and that one
    call is the only one made. *)
Theorem proxy_transport_failure_is_500 request path w
    (cls : request_error) (msg : string) :
  let o := SharedRequest (outbound_request cfg request path) in
  let detail := "Error communicating with backend: " +:+ msg in
  network w (sent w) o = Raise (RequestError cls msg) →
  (proxy_to_spring cfg request path w).1 = Raise (HTTPException 500 detail)
  ∧ (any_proxy cfg request path w).1
    = JSONResponse (JObj [("detail", JStr detail)]) 500
  ∧ sent (proxy_to_spring cfg request path w).2 = sent w ++ [o]
  ∧ sent (any_proxy cfg request path w).2 = sent w ++ [o].
Proof.
  intros o detail Hfail. unfold any_proxy, serve.
  rewrite proxy_to_spring_run. fold o. rewrite Hfail. simpl. done.
Qed.


End proxy.

(** ** Health *)

(** C8. In every world the health handler returns the same two-member
    object, which the framework sends with status 200; the world is left
    as it was (no call is logged), and nothing is raised. *)
Theorem health_always_healthy (w : World) :
  health_check w
    = (Return (JObj [("status", JStr "healthy"); ("service", JStr "python-backend")]), w)
  ∧ get_health w
    = (JSONResponse
         (JObj [("status", JStr "healthy"); ("service", JStr "python-backend")]) 200, w).
Proof. split; reflexivity. Qed.

(** ** Process and forward *)

Section process.

Variable cfg : Config.
Implicit Types (data : list (string * json)) (w : World).



(** The handler ends in one of two ways only. *)
Lemma process_data_outcomes data w :
  (∃ content sc, (process_data cfg data w).1 = Return (JSONResponse content sc))
  ∨ (∃ detail, (process_data cfg data w).1 = Raise (HTTPException 500 detail)).
Proof.
  rewrite process_data_run. cbv zeta.
  destruct (network w (sent w) _) as [r|e]; [destruct (resp_json r)|]; simpl; eauto.
Qed.

(** C9, as the code has it. A decoded body that is a JSON object, whatever
    its members, reaches the handler, which makes its POST with the
    object as [original]; a decoded body of any other shape is answered
    422 by the framework, and no call is made. *)
Theorem process_accepts_objects_only (decoded : json) w :
  match decoded with
  | JObj members =>
      post_api_process cfg decoded w = serve (process_data cfg members) w
      ∧ (post_api_process cfg decoded w).1 ≠ ValidationErrorResponse
      ∧ sent (post_api_process cfg decoded w).2
        = sent w ++ [FreshPost (outbound_post cfg (local_clock w) members)]
  | _ => post_api_process cfg decoded w = (ValidationErrorResponse, w)
  end.
Proof.
  destruct decoded as [| | | | | |members]; try reflexivity.
  split; [reflexivity|]. unfold post_api_process, serve.
  rewrite process_data_run. cbv zeta.
  split; [|by destruct (network w (sent w) _) as [r|e]; [destruct (resp_json r)|]].
  destruct (network w (sent w) _) as [r|e]; [destruct (resp_json r)|]; done.
Qed.

End process.

(** ** The properties at work on the samples *)

Module Checks.

Import Samples.

Example proxy_paths :
  rq_url (outbound_request default_cfg inbound "") = "http://localhost:8080/"
  ∧ rq_url (outbound_request default_cfg inbound "api/v1/items/3")
    = "http://localhost:8080/api/v1/items/3"
  ∧ rq_url (outbound_request default_cfg inbound "../a//b?x=1&y=%20")
    = "http://localhost:8080/../a//b?x=1&y=%20".
Proof. repeat split. Qed.

Example upstream_headers_as_mapping :
  dict (resp_headers not_found) !! "set-cookie" = Some "a=1, b=2"
  ∧ dict (resp_headers not_found) !! "content-type" = Some "text/plain"
  ∧ dict (resp_headers not_found) !! "Content-Type" = None.
Proof. repeat split. Qed.

Example inbound_as_dicts :
  dict (req_headers inbound) !! "x-trace" = Some "1"
  ∧ dict (query_params inbound) !! "page" = Some "2".
Proof. repeat split. Qed.

Example timestamps :
  isoformat afternoon = "2024-03-09T14:05:07"
  ∧ isoformat (mkDatetime 2025 1 1 0 0 0 250000) = "2025-01-01T00:00:00.250000".
Proof. repeat split. Qed.

Lemma inbound_asgi : asgi_names (req_headers inbound).
Proof. repeat constructor. Qed.


Lemma proxy_drops_host_keeps_rest_witness :
  let c := outbound_request default_cfg inbound "orders/7" in
  rq_headers c !! "host" = None
  ∧ rq_headers c !! "Host" = None
  ∧ rq_headers c !! "x-trace" = Some "1"
  ∧ rq_headers c !! "authorization" = Some "Basic dXNlcg==".
Proof.
  intros c.
  destruct (proxy_drops_host_keeps_rest default_cfg inbound "orders/7"
              (answering not_found) c eq_refl) as (Hhost & Hany & _ & Hrest).
  split; [exact Hhost|].
  split; [exact (Hany inbound_asgi "Host" eq_refl)|].
  split.
  - rewrite (Hrest eq_refl inbound_asgi "x-trace"); [reflexivity|discriminate].
  - rewrite (Hrest eq_refl inbound_asgi "authorization"); [reflexivity|discriminate].
Defined.

Lemma proxy_sends_two_authorization_headers_witness :
  ∃ c, sent (proxy_to_spring keyed_cfg inbound "orders/7" (answering not_found)).2
         = sent (answering not_found) ++ [SharedRequest c]
       ∧ rq_headers c !! "Authorization" = Some ("Bearer " +:+ API_KEY keyed_cfg)
       ∧ rq_headers c !! "authorization" = Some "Basic dXNlcg==".
Proof.
  apply (proxy_sends_two_authorization_headers keyed_cfg inbound "orders/7"
           (answering not_found) "Basic dXNlcg==").
  - discriminate.
  - exact inbound_asgi.
  - reflexivity.
Defined.

Lemma proxy_transport_failure_is_500_witness :
  (any_proxy default_cfg inbound "orders/7" unreachable).1
  = JSONResponse
      (JObj [("detail",
              JStr "Error communicating with backend: All connection attempts failed")])
      500.
Proof.
  apply (proxy_transport_failure_is_500 default_cfg inbound "orders/7" unreachable
           ConnectError "All connection attempts failed").
  reflexivity.
Defined.





(** C9, as the spec words it, fails on a body that is a JSON array: it is
    answered 422 and nothing is posted. *)
Lemma process_rejects_array :
  let w := answering created in
  status_of (post_api_process default_cfg (JArr [JInt 1; JInt 2]) w).1 = 422
  ∧ sent (post_api_process default_cfg (JArr [JInt 1; JInt 2]) w).2 = sent w.
Proof. split; reflexivity. Qed.

End Checks.

(** * Further properties *)

(** ** More on strings and the multi-maps *)

Lemma append_cancel (a b c : string) : a +:+ b = a +:+ c → b = c.
Proof.
  induction a as [|x a IH]; simpl; intros Heq; [done|].
  injection Heq as Heq. by apply IH.
Qed.

Lemma first_value_app_absent (k : string) (l1 l2 : list (string * string)) :
  k ∉ (fst <$> l1) → first_value k (l1 ++ l2) = first_value k l2.
Proof.
  unfold first_value. induction l1 as [|[k' v] l1 IH]; simpl; intros Hk; [done|].
  apply not_elem_of_cons in Hk as [Hne Hk].
  destruct (String.eqb_spec k' k) as [->|_]; [done|]. by apply IH.
Qed.

Lemma last_value_split (k v : string) (l1 l2 : list (string * string)) :
  k ∉ (fst <$> l2) → last_value k (l1 ++ (k, v) :: l2) = Some v.
Proof.
  intros Hk. unfold last_value.
  rewrite rev_app_distr. simpl. rewrite <- app_assoc. simpl.
  rewrite first_value_app_absent.
  - unfold first_value. simpl. by rewrite String.eqb_refl.
  - intros Hin. apply Hk.
    apply list_elem_of_fmap in Hin as [kv [-> Hkv]].
    apply list_elem_of_fmap. exists kv. split; [done|].
    apply list_elem_of_In. apply in_rev. by apply list_elem_of_In.
Qed.

(** [dict(request.query_params)] maps each parameter to the last value
    given for it. *)
Lemma dict_QueryParams_lookup (q : QueryParams) (k : string) :
  dict q !! k = last_value k (multi_items q).
Proof.
  rewrite dict_lookup. destruct (decide (k ∈ keys q)) as [Hk|Hk]; [done|].
  symmetry. apply first_value_absent. intros Hin. apply Hk. simpl.
  apply list_elem_of_fmap in Hin as [kv [-> Hkv]].
  apply list_elem_of_fmap. exists kv. split; [done|].
  apply list_elem_of_In. apply in_rev. by apply list_elem_of_In.
Qed.




(** ** More on the proxy *)

Section more_proxy.

Variable cfg : Config.
Implicit Types (request : Request) (path : string) (w : World).

(** X1. An exception of the call that is not a request error of httpx is
    not translated: it leaves the handler as it is, the caller gets the
    server's plain 500 and not the [{"detail": ...}] of the gateway; the
    call has been made once. *)
Theorem proxy_other_exception_escapes request path w (cls msg : string) :
  let o := SharedRequest (outbound_request cfg request path) in
  network w (sent w) o = Raise (PyError cls msg) →
  (proxy_to_spring cfg request path w).1 = Raise (PyError cls msg)
  ∧ (any_proxy cfg request path w).1 = PlainTextResponse "Internal Server Error" 500
  ∧ sent (any_proxy cfg request path w).2 = sent w ++ [o].
Proof.
  intros o Hfail. unfold any_proxy, serve.
  rewrite proxy_to_spring_run. fold o. by rewrite Hfail.
Qed.

(** X2. With or without a key, under every key other than ["host"] and
    ["Authorization"] the outbound header dict has what
    [dict(request.headers)] has: the same value, or nothing. *)
Theorem proxy_keeps_other_headers request path w (k : string) :
  k ≠ "host" → k ≠ "Authorization" →
  ∃ c, sent (proxy_to_spring cfg request path w).2 = sent w ++ [SharedRequest c]
       ∧ rq_headers c !! k = dict (req_headers request) !! k.
Proof.
  intros Hhost Hauth. exists (outbound_request cfg request path).
  split; [by rewrite proxy_to_spring_run|].
  rewrite outbound_headers_lookup.
  destruct (truthy (API_KEY cfg)); by rewrite !decide_False.
Qed.

(** X3. The query parameters go out as a dict: a parameter the request
    does not have is not there, and a parameter given several times goes
    out once, with the last of its values. *)
Theorem proxy_query_last_value_wins request path w :
  ∃ c, sent (proxy_to_spring cfg request path w).2 = sent w ++ [SharedRequest c]
       ∧ (∀ k, k ∉ (fst <$> multi_items (query_params request)) →
               rq_params c !! k = None)
       ∧ (∀ k v before after,
            multi_items (query_params request) = before ++ (k, v) :: after →
            k ∉ (fst <$> after) →
            rq_params c !! k = Some v).
Proof.
  exists (outbound_request cfg request path).
  split; [by rewrite proxy_to_spring_run|].
  unfold outbound_request; simpl. split.
  - intros k Hk. rewrite dict_lookup. by rewrite decide_False.
  - intros k v before after Hitems Hk.
    rewrite dict_QueryParams_lookup, Hitems. by apply last_value_split.
Qed.

(** X4. Nothing is normalised on the way to the URL: two different paths
    never give the same target URL. *)
Theorem proxy_distinct_paths_distinct_urls request1 request2 path1 path2 :
  path1 ≠ path2 →
  rq_url (outbound_request cfg request1 path1)
  ≠ rq_url (outbound_request cfg request2 path2).
Proof.
  intros Hne Heq. apply Hne. unfold outbound_request in Heq; simpl in Heq.
  apply append_cancel in Heq. by injection Heq.
Qed.


End more_proxy.

(** ** More on process and forward *)

(** X6. The POST of [process_data] carries the content type and nothing
    else, whatever the configuration: the credential that the proxy
    injects is never sent on this path, and a change of API_KEY changes
    nothing in a run of the handler. *)
Theorem process_sends_no_credential (cfg : Config)
    (data : list (string * json)) (w : World) :
  ∃ c, sent (process_data cfg data w).2 = sent w ++ [FreshPost c]
       ∧ post_headers c !! "Content-Type" = Some "application/json"
       ∧ (∀ k, k ≠ "Content-Type" → post_headers c !! k = None)
       ∧ (∀ key, process_data (mkConfig (SPRING_BACKEND_URL cfg) key) data w
                 = process_data cfg data w).
Proof.
  exists (outbound_post cfg (local_clock w) data).
  split; [by rewrite process_data_run|].
  split; [apply lookup_singleton_eq|].
  split; [by intros k Hk; apply lookup_singleton_ne|].
  intros key. by rewrite !process_data_run.
Qed.

(** ** The configuration read from the environment *)

(** X7. When the environment has no API_KEY, or an empty one, the proxy
    adds nothing to the headers: they are [dict(request.headers)] without
    ["host"]. When it has a non-empty one, that is the bearer credential
    sent. When it has no SPRING_BACKEND_URL, both handlers call
    http://localhost:8080. *)
Theorem environment_defaults (environ : gmap string string)
    (request : Request) (path : string) :
  let cfg := load_config environ in
  ((environ !! "API_KEY" = None ∨ environ !! "API_KEY" = Some "") →
   rq_headers (outbound_request cfg request path)
   = delete "host" (dict (req_headers request)))
  ∧ (∀ key, environ !! "API_KEY" = Some key → key ≠ "" →
       rq_headers (outbound_request cfg request path) !! "Authorization"
       = Some ("Bearer " +:+ key))
  ∧ (environ !! "SPRING_BACKEND_URL" = None →
     rq_url (outbound_request cfg request path) = "http://localhost:8080/" +:+ path
     ∧ ∀ now data, post_url (outbound_post cfg now data)
                   = "http://localhost:8080/api/processed-data").
Proof.
  intros cfg. split; [|split].
  - intros Hkey. unfold outbound_request; simpl. unfold getenv.
    by destruct Hkey as [-> | ->].
  - intros key Hkey Hne.
    assert (Hcfg : API_KEY cfg = key).
    { unfold cfg, load_config, getenv; simpl. by rewrite Hkey. }
    rewrite <- Hcfg. apply proxy_sets_bearer. by rewrite Hcfg.
  - intros Hurl. unfold outbound_request, outbound_post; simpl.
    unfold getenv. by rewrite Hurl.
Qed.

(** ** Requests served in sequence *)

Lemma handle_log (cfg : Config) (a : arrival) (w : World) :
  sent (handle cfg (what a) (at_time a w)).2 = sent w ++ outbound_of cfg a
  ∧ network (handle cfg (what a) (at_time a w)).2 = network w.
Proof.
  unfold outbound_of. destruct (what a) as [|request path|decoded]; simpl.
  - split; [by rewrite app_nil_r|done].
  - unfold any_proxy, serve. rewrite proxy_to_spring_run. cbv zeta.
    by destruct (network _ _ _) as [r|e]; [|destruct (is_RequestError e)].
  - destruct decoded as [| | | | | |members]; simpl;
      try (split; [by rewrite app_nil_r|done]).
    unfold serve. rewrite process_data_run. cbv zeta.
    by destruct (network _ _ _) as [r|e]; [destruct (resp_json r)|].
Qed.

(** X8. Served one after the other, the requests are each answered, and
    the log of outbound calls grows by exactly the calls they stand for,
    in the order of arrival: one per proxied request, one per object sent
    to the processing route, none for a health check or a body that is
    turned down. No handler changes what the upstream will answer. *)
Theorem serve_all_log (cfg : Config) (arrivals : list arrival) (w : World) :
  List.length (serve_all cfg arrivals w).1 = List.length arrivals
  ∧ sent (serve_all cfg arrivals w).2
    = sent w ++ List.concat (outbound_of cfg <$> arrivals)
  ∧ network (serve_all cfg arrivals w).2 = network w.
Proof.
  revert w. induction arrivals as [|a rest IH]; intros w; simpl.
  - by rewrite app_nil_r.
  - pose proof (handle_log cfg a w) as [Hsent Hnet].
    destruct (handle cfg (what a) (at_time a w)) as [r w1]. simpl in Hsent, Hnet.
    specialize (IH w1) as (Hlen & Hsent' & Hnet').
    destruct (serve_all cfg rest w1) as [rs w2]. simpl in *.
    split; [by rewrite Hlen|].
    split; [|congruence].
    by rewrite Hsent', Hsent, <- app_assoc.
Qed.

(** ** The timestamp *)

Lemma length_append (a b : string) :
  String.length (a +:+ b) = (String.length a + String.length b)%nat.
Proof. induction a as [|x a IH]; simpl; [done|]. by rewrite IH. Qed.

Lemma append_inj_length (a a' b b' : string) :
  String.length a = String.length a' → a +:+ b = a' +:+ b' → a = a' ∧ b = b'.
Proof.
  revert a'. induction a as [|x a IH]; intros [|x' a']; simpl; try done.
  intros Hlen Heq. injection Hlen as Hlen. injection Heq as -> Heq.
  destruct (IH a' Hlen Heq) as [-> ->]. done.
Qed.

Lemma zero_padded_length (width : nat) (n : N) :
  String.length (zero_padded width n) = width.
Proof.
  revert n. induction width as [|width IH]; intros n; simpl; [done|].
  rewrite length_append, IH. simpl. lia.
Qed.

Lemma digit_inj (n1 n2 : N) : digit n1 = digit n2 → (n1 mod 10 = n2 mod 10)%N.
Proof.
  unfold digit. intros Heq.
  assert (H1 : (n1 mod 10 < 10)%N) by (apply N.mod_lt; lia).
  assert (H2 : (n2 mod 10 < 10)%N) by (apply N.mod_lt; lia).
  apply (f_equal N_of_ascii) in Heq.
  rewrite !N_ascii_embedding in Heq by lia. lia.
Qed.

(** A number that fits the width can be read back from its digits. *)
Lemma zero_padded_inj (width : nat) (n1 n2 : N) :
  (n1 < 10 ^ N.of_nat width)%N → (n2 < 10 ^ N.of_nat width)%N →
  zero_padded width n1 = zero_padded width n2 → n1 = n2.
Proof.
  revert n1 n2. induction width as [|width IH]; intros n1 n2 H1 H2 Heq.
  - simpl in H1, H2. lia.
  - rewrite Nat2N.inj_succ, N.pow_succ_r' in H1, H2.
    simpl in Heq. apply append_inj_length in Heq as [Hhigh Hlow];
      [|by rewrite !zero_padded_length].
    injection Hlow as Hlow. apply digit_inj in Hlow.
    apply IH in Hhigh;
      [|apply N.Div0.div_lt_upper_bound; lia|apply N.Div0.div_lt_upper_bound; lia].
    rewrite (N.div_mod n1 10), (N.div_mod n2 10) by lia. congruence.
Qed.

Ltac take_field H Hf :=
  apply append_inj_length in H as [Hf H];
  [apply append_cancel in H | by rewrite !zero_padded_length].

(** Two readings with fields in range that print the same are the same
    reading. With the microsecond at zero the text has 19 characters, and
    26 otherwise. *)
Lemma isoformat_inj (d1 d2 : datetime) :
  valid_datetime d1 → valid_datetime d2 →
  isoformat d1 = isoformat d2 →
  d1 = d2
  ∧ String.length (isoformat d1)
    = (if (microsecond d1 =? 0)%N then 19 else 26)%nat.
Proof.
  intros (Hy1 & Hm1 & Hd1 & Hh1 & Hmi1 & Hs1 & Hu1)
         (Hy2 & Hm2 & Hd2 & Hh2 & Hmi2 & Hs2 & Hu2) Heq.
  split.
  - unfold isoformat in Heq.
    take_field Heq Hy. take_field Heq Hm. take_field Heq Hd.
    take_field Heq Hh. take_field Heq Hmi.
    apply append_inj_length in Heq as [Hs Hfrac];
      [|by rewrite !zero_padded_length].
    apply (zero_padded_inj 4) in Hy; [|change (10 ^ N.of_nat 4)%N with 10000%N; lia..].
    apply (zero_padded_inj 2) in Hm; [|change (10 ^ N.of_nat 2)%N with 100%N; lia..].
    apply (zero_padded_inj 2) in Hd; [|change (10 ^ N.of_nat 2)%N with 100%N; lia..].
    apply (zero_padded_inj 2) in Hh; [|change (10 ^ N.of_nat 2)%N with 100%N; lia..].
    apply (zero_padded_inj 2) in Hmi; [|change (10 ^ N.of_nat 2)%N with 100%N; lia..].
    apply (zero_padded_inj 2) in Hs; [|change (10 ^ N.of_nat 2)%N with 100%N; lia..].
    assert (Hu : microsecond d1 = microsecond d2).
    { destruct (N.eqb_spec (microsecond d1) 0) as [Hz1|Hn1],
               (N.eqb_spec (microsecond d2) 0) as [Hz2|Hn2];
        try done; [congruence|].
      apply append_cancel in Hfrac.
      apply (zero_padded_inj 6) in Hfrac;
        [done|change (10 ^ N.of_nat 6)%N with 1000000%N; lia..]. }
    destruct d1, d2; simpl in *. congruence.
  - unfold isoformat. rewrite !length_append, !zero_padded_length.
    destruct (microsecond d1 =? 0)%N; [done|].
    by rewrite length_append, zero_padded_length.
Qed.

(** X9. Nothing is lost in the object that is posted: from it one reads
    back the payload and, for a clock with its fields in range, the clock
    reading. Two runs that post the same object had the same payload and
    read the same time. *)
Theorem process_post_identifies_payload_and_time (cfg : Config)
    (data1 data2 : list (string * json)) (w1 w2 : World) (c : client_post) :
  valid_datetime (local_clock w1) → valid_datetime (local_clock w2) →
  sent (process_data cfg data1 w1).2 = sent w1 ++ [FreshPost c] →
  sent (process_data cfg data2 w2).2 = sent w2 ++ [FreshPost c] →
  data1 = data2 ∧ local_clock w1 = local_clock w2.
Proof.
  intros Hv1 Hv2 H1 H2. rewrite process_data_run in H1, H2.
  cbn [snd] in H1, H2. rewrite sent_logged in H1, H2.
  apply app_inv_head in H1, H2.
  assert (Hjson : processed_data (local_clock w1) data1
                  = processed_data (local_clock w2) data2).
  { change (post_json (outbound_post cfg (local_clock w1) data1)
            = post_json (outbound_post cfg (local_clock w2) data2)).
    congruence. }
  unfold processed_data in Hjson.
  assert (Htime : isoformat (local_clock w1) = isoformat (local_clock w2))
    by congruence.
  split; [congruence|]. by destruct (isoformat_inj _ _ Hv1 Hv2 Htime).
Qed.

(** ** The further properties at work on the samples *)

Module MoreChecks.

Import Samples.

Example morning_served :
  status_of <$> (serve_all default_cfg morning (answering not_found)).1
    = [200; 404; 422; 500]
  ∧ sent (serve_all default_cfg morning (answering not_found)).2
    = [SharedRequest (outbound_request default_cfg inbound "orders/7");
       FreshPost (outbound_post default_cfg (mkDatetime 2024 3 9 14 5 8 0)
                                [("x", JInt 1)])].
Proof. split; reflexivity. Qed.

Lemma proxy_other_exception_escapes_witness :
  (any_proxy default_cfg inbound "orders/7" rejecting).1
  = PlainTextResponse "Internal Server Error" 500.
Proof.
  apply (proxy_other_exception_escapes default_cfg inbound "orders/7" rejecting
           "InvalidURL" "Invalid port: 'eighty'").
  reflexivity.
Defined.

Lemma proxy_keeps_other_headers_witness :
  ∃ c, sent (proxy_to_spring keyed_cfg inbound "orders/7" (answering not_found)).2
         = sent (answering not_found) ++ [SharedRequest c]
       ∧ rq_headers c !! "x-trace" = dict (req_headers inbound) !! "x-trace".
Proof.
  apply (proxy_keeps_other_headers keyed_cfg inbound "orders/7"
           (answering not_found) "x-trace"); discriminate.
Defined.

Lemma proxy_query_last_value_wins_witness :
  ∃ c, sent (proxy_to_spring default_cfg inbound "orders/7" (answering not_found)).2
         = sent (answering not_found) ++ [SharedRequest c]
       ∧ rq_params c !! "page" = Some "2"
       ∧ rq_params c !! "size" = None.
Proof.
  destruct (proxy_query_last_value_wins default_cfg inbound "orders/7"
              (answering not_found)) as (c & Hsent & Habsent & Hlast).
  exists c. split; [exact Hsent|]. split.
  - apply (Hlast "page" "2" [("page", "1")] []); [reflexivity|].
    apply not_elem_of_nil.
  - apply Habsent. intros Hin.
    apply elem_of_cons in Hin as [Hin|Hin]; [discriminate Hin|].
    apply elem_of_cons in Hin as [Hin|Hin]; [discriminate Hin|].
    by apply elem_of_nil in Hin.
Defined.

Lemma proxy_distinct_paths_distinct_urls_witness :
  rq_url (outbound_request default_cfg inbound "orders/7")
  ≠ rq_url (outbound_request default_cfg inbound "orders/7/").
Proof.
  apply (proxy_distinct_paths_distinct_urls default_cfg inbound inbound
           "orders/7" "orders/7/").
  discriminate.
Defined.


Lemma process_sends_no_credential_witness :
  ∃ c, sent (process_data keyed_cfg [("x", JInt 1)] (answering created)).2
         = sent (answering created) ++ [FreshPost c]
       ∧ post_headers c !! "Authorization" = None.
Proof.
  destruct (process_sends_no_credential keyed_cfg [("x", JInt 1)]
              (answering created)) as (c & Hsent & _ & Hnone & _).
  exists c. split; [exact Hsent|]. apply Hnone. discriminate.
Defined.

Lemma environment_defaults_witness :
  rq_headers (outbound_request (load_config ∅) inbound "orders/7")
  = delete "host" (dict (req_headers inbound))
  ∧ rq_headers (outbound_request (load_config {["API_KEY" := "s3cret"]})
                                 inbound "orders/7") !! "Authorization"
    = Some "Bearer s3cret"
  ∧ rq_url (outbound_request (load_config ∅) inbound "orders/7")
    = "http://localhost:8080/orders/7".
Proof.
  destruct (environment_defaults ∅ inbound "orders/7") as (Hnone & _ & Hurl).
  destruct (environment_defaults {["API_KEY" := "s3cret"]} inbound "orders/7")
    as (_ & Hkey & _).
  split; [apply Hnone; left; reflexivity|].
  split; [apply (Hkey "s3cret"); [reflexivity|discriminate]|].
  apply Hurl. reflexivity.
Defined.

Lemma afternoon_valid : valid_datetime afternoon.
Proof. unfold valid_datetime, afternoon; simpl. lia. Qed.

Lemma process_post_identifies_payload_and_time_witness :
  [("x", JInt 1)] = [("x", JInt 1)]
  ∧ local_clock (answering created) = local_clock unreachable.
Proof.
  apply (process_post_identifies_payload_and_time default_cfg
           [("x", JInt 1)] [("x", JInt 1)] (answering created) unreachable
           (outbound_post default_cfg afternoon [("x", JInt 1)]));
    first [exact afternoon_valid | reflexivity].
Defined.

End MoreChecks.
